(** * bokeh/transform.py: helpers that build [DataSpec] dicts

    The module consists of seven public helpers.  Six of them build a
    model object (a transform, a colour mapper or an expression) from their
    arguments and hand it to [field] or [expr]; [transform] hands the object
    it is given to [field].

    Python values are modelled with an explicit store: model objects live in
    a heap and are named by references, so that object identity, allocation
    and (absence of) mutation can be stated.  Constructor validation can
    raise; the helpers run in a state-and-error monad. *)

From Stdlib Require Import ZArith.
From Corelib Require Import PrimFloat.
From stdpp Require Import base option list strings gmap fin_maps fin_sets.

Local Open Scope string_scope.

(** ** Python values *)

Abbreviation loc := positive.

#[warnings="-register-all"] Inductive pyval : Type :=
  | PyNone
  | PyBool (b : bool)
  | PyInt (z : Z)
  | PyFloat (x : PrimFloat.float)
  | PyStr (s : string)
  | PyTuple (items : list pyval)
  | PyList (items : list pyval)
  | PyRef (l : loc).

(** The classes this module instantiates, and any other model class a
    caller may hand in (a range, a custom transform, ...). *)
Inductive model_class : Type :=
  | ClsDodge
  | ClsJitter
  | ClsCategoricalColorMapper
  | ClsLinearColorMapper
  | ClsLogColorMapper
  | ClsStack
  | ClsOther (name : string).

(** Keyword arguments, in the order they are written at the call. *)
Definition kwargs := list (string * pyval).

(** A model instance: its class and the property values set on it. *)
Record instance : Type := Instance {
  inst_class : model_class;
  inst_props : gmap string pyval
}.

Abbreviation heap := (gmap loc instance).

(** A raised Python exception: its class name and its message. *)
Record pyexn : Type := PyExn {
  exn_class : string;
  exn_msg : string
}.

(** ** The state-and-error monad the helpers run in *)

Inductive outcome (A : Type) : Type :=
  | Returns (a : A) (h : heap)
  | Raises (e : pyexn).
Arguments Returns {A} a h.
Arguments Raises {A} e.

Definition py (A : Type) : Type := heap -> outcome A.

Definition ret {A} (a : A) : py A := fun h => Returns a h.

Definition raise {A} (e : pyexn) : py A := fun _ => Raises e.

Definition bind {A B} (m : py A) (k : A -> py B) : py B :=
  fun h =>
    match m h with
    | Returns a h' => k a h'
    | Raises e => Raises e
    end.

Notation "x <- m ;; k" := (bind m (fun x => k))
  (at level 100, m at next level, right associativity).

(** Allocation of a new object at an address the heap does not use. *)
Definition alloc (o : instance) : py pyval :=
  fun h => let l := fresh (dom h) in Returns (PyRef l) (<[l := o]> h).

(** ** The parts of the library the helpers call

    [transform.py] imports [field] and [expr] from [core.properties] and the
    model classes from [models]; the decorator [public] only records the API
    version a function appeared in and leaves the function as it is. *)

(** What a constructor's own validation says about a call: [None] when the
    arguments are accepted, [Some e] when it raises [e].  Validation may
    look at the store (the class of the object a reference names). *)
Class Validation : Type :=
  validate : model_class -> kwargs -> heap -> option pyexn.

(** Modelled from the spec: the constructors of the model classes (Dodge,
    Jitter, CategoricalColorMapper, LinearColorMapper, LogColorMapper and
    Stack are defined outside this module).  A constructor runs its own
    validation and either raises or builds a new object that carries the
    given parameters unchanged. *)
Definition new_model `{Validation} (cls : model_class) (kw : kwargs) : py pyval :=
  fun h =>
    match validate cls kw h with
    | Some e => Raises e
    | None => alloc (Instance cls (list_to_map kw)) h
    end.

(* One constructor per class the module imports. *)
Definition Dodge `{Validation} := new_model ClsDodge.
Definition Jitter `{Validation} := new_model ClsJitter.
Definition CategoricalColorMapper `{Validation} := new_model ClsCategoricalColorMapper.
Definition LinearColorMapper `{Validation} := new_model ClsLinearColorMapper.
Definition LogColorMapper `{Validation} := new_model ClsLogColorMapper.
Definition Stack `{Validation} := new_model ClsStack.

(** The mapping the helpers return. *)
Abbreviation dataspec := (gmap string pyval).

(** Modelled from the spec: [field] of [core.properties], the
    field-association helper.  It returns the mapping
    [{"field": name, "transform": transform}]. *)
Definition field (name transform : pyval) : dataspec :=
  <["field" := name]> (<["transform" := transform]> ∅).

(** Modelled from the spec: [expr] of [core.properties].  It returns the
    expression variant [{"expr": expression}]. *)
Definition expr (expression : pyval) : dataspec :=
  <["expr" := expression]> ∅.

(** ** Public API *)

Section PublicAPI.
Context `{Validation}.

(* An optional parameter is [None] when the caller leaves it unset; the
   default of the signature is then substituted. *)

Definition dodge (field_name value : pyval) (range : option pyval)
  : py dataspec :=
  let range := default PyNone range in
  t <- Dodge [("value", value); ("range", range)] ;;
  ret (field field_name t).

Definition factor_cmap (field_name palette factors : pyval)
    (start end_ nan_color : option pyval) : py dataspec :=
  let start := default (PyInt 0) start in
  let end_ := default PyNone end_ in
  let nan_color := default (PyStr "gray") nan_color in
  t <- CategoricalColorMapper [("palette", palette);
                               ("factors", factors);
                               ("start", start);
                               ("end", end_);
                               ("nan_color", nan_color)] ;;
  ret (field field_name t).

Definition jitter (field_name width : pyval)
    (mean distribution range : option pyval) : py dataspec :=
  let mean := default (PyInt 0) mean in
  let distribution := default (PyStr "uniform") distribution in
  let range := default PyNone range in
  t <- Jitter [("mean", mean);
               ("width", width);
               ("distribution", distribution);
               ("range", range)] ;;
  ret (field field_name t).

Definition linear_cmap (field_name palette low high : pyval)
    (low_color high_color nan_color : option pyval) : py dataspec :=
  let low_color := default PyNone low_color in
  let high_color := default PyNone high_color in
  let nan_color := default (PyStr "gray") nan_color in
  t <- LinearColorMapper [("palette", palette);
                          ("low", low);
                          ("high", high);
                          ("nan_color", nan_color);
                          ("low_color", low_color);
                          ("high_color", high_color)] ;;
  ret (field field_name t).

Definition log_cmap (field_name palette low high : pyval)
    (low_color high_color nan_color : option pyval) : py dataspec :=
  let low_color := default PyNone low_color in
  let high_color := default PyNone high_color in
  let nan_color := default (PyStr "gray") nan_color in
  t <- LogColorMapper [("palette", palette);
                       ("low", low);
                       ("high", high);
                       ("nan_color", nan_color);
                       ("low_color", low_color);
                       ("high_color", high_color)] ;;
  ret (field field_name t).

(* [*fields] collects the positional arguments in a tuple. *)
Definition stack (fields : list pyval) : py dataspec :=
  e <- Stack [("fields", PyTuple fields)] ;;
  ret (expr e).

Definition transform (field_name transform : pyval) : py dataspec :=
  ret (field field_name transform).

(** A call of one of the seven public helpers, with its arguments. *)
Inductive api_call : Type :=
  | call_dodge (field_name value : pyval) (range : option pyval)
  | call_factor_cmap (field_name palette factors : pyval)
      (start end_ nan_color : option pyval)
  | call_jitter (field_name width : pyval)
      (mean distribution range : option pyval)
  | call_linear_cmap (field_name palette low high : pyval)
      (low_color high_color nan_color : option pyval)
  | call_log_cmap (field_name palette low high : pyval)
      (low_color high_color nan_color : option pyval)
  | call_stack (fields : list pyval)
  | call_transform (field_name transform : pyval).

Definition run_call (c : api_call) : py dataspec :=
  match c with
  | call_dodge f v r => dodge f v r
  | call_factor_cmap f p fs s e n => factor_cmap f p fs s e n
  | call_jitter f w m d r => jitter f w m d r
  | call_linear_cmap f p lo hi lc hc n => linear_cmap f p lo hi lc hc n
  | call_log_cmap f p lo hi lc hc n => log_cmap f p lo hi lc hc n
  | call_stack fs => stack fs
  | call_transform f t => transform f t
  end.

End PublicAPI.

(** ** Vocabulary of the properties *)

(** The field-name argument of a call; [stack] takes none. *)
Definition field_name_of (c : api_call) : option pyval :=
  match c with
  | call_dodge f _ _ => Some f
  | call_factor_cmap f _ _ _ _ _ => Some f
  | call_jitter f _ _ _ _ => Some f
  | call_linear_cmap f _ _ _ _ _ _ => Some f
  | call_log_cmap f _ _ _ _ _ _ => Some f
  | call_stack _ => None
  | call_transform f _ => Some f
  end.

Definition is_stack (c : api_call) : bool :=
  match c with call_stack _ => true | _ => false end.

(** The object a value names in a store. *)
Definition deref (h : heap) (v : pyval) : option instance :=
  match v with PyRef l => h !! l | _ => None end.

(** The object a mapping carries under [key]. *)
Definition embedded (key : string) (d : dataspec) (h : heap) : option instance :=
  v ← d !! key; deref h v.

(** Reading a property that was set on an object. *)
Definition getattr (o : instance) (name : string) : option pyval :=
  inst_props o !! name.

(** A mapping as an observer sees it in store [h]: every entry that names
    an object is replaced by that object. *)
Definition observe_value (h : heap) (v : pyval) : pyval + instance :=
  match deref h v with Some o => inr o | None => inl v end.

Definition observe (h : heap) (d : dataspec) : gmap string (pyval + instance) :=
  observe_value h <$> d.

(** The constructor call behind each helper: the class the helper is named
    after, applied to the helper's parameters with the defaults of its
    signature filled in; [transform] calls none. *)
Definition underlying_constructor `{Validation} (c : api_call)
  : option (py pyval) :=
  match c with
  | call_dodge _ v r =>
      Some (Dodge [("value", v); ("range", default PyNone r)])
  | call_factor_cmap _ p fs s e n =>
      Some (CategoricalColorMapper
              [("palette", p); ("factors", fs);
               ("start", default (PyInt 0) s);
               ("end", default PyNone e);
               ("nan_color", default (PyStr "gray") n)])
  | call_jitter _ w m d r =>
      Some (Jitter
              [("mean", default (PyInt 0) m); ("width", w);
               ("distribution", default (PyStr "uniform") d);
               ("range", default PyNone r)])
  | call_linear_cmap _ p lo hi lc hc n =>
      Some (LinearColorMapper
              [("palette", p); ("low", lo); ("high", hi);
               ("nan_color", default (PyStr "gray") n);
               ("low_color", default PyNone lc);
               ("high_color", default PyNone hc)])
  | call_log_cmap _ p lo hi lc hc n =>
      Some (LogColorMapper
              [("palette", p); ("low", lo); ("high", hi);
               ("nan_color", default (PyStr "gray") n);
               ("low_color", default PyNone lc);
               ("high_color", default PyNone hc)])
  | call_stack fs => Some (Stack [("fields", PyTuple fs)])
  | call_transform _ _ => None
  end.

(** Whether a computation returns from store [h]. *)
Definition returns {A} (m : py A) (h : heap) : bool :=
  match m h with Returns _ _ => true | Raises _ => false end.

(** Whether the constructor behind a call accepts its arguments. *)
Definition accepted `{Validation} (c : api_call) (h : heap) : bool :=
  from_option (λ ctor, returns ctor h) true (underlying_constructor c).

(** The colour mapper a continuous colour-mapping helper builds when the
    optional colours are left unset. *)
Definition cmap_defaults_spec `{Validation}
    (helper : pyval → pyval → pyval → pyval →
              option pyval → option pyval → option pyval → py dataspec)
    (cls : model_class) : Prop :=
  ∀ (field_name palette low high : pyval) (h : heap),
    validate cls
      [("palette", palette); ("low", low); ("high", high);
       ("nan_color", PyStr "gray"); ("low_color", PyNone);
       ("high_color", PyNone)] h = None →
    ∃ d h' o,
      helper field_name palette low high None None None h = Returns d h'
      ∧ embedded "transform" d h' = Some o
      ∧ inst_class o = cls
      ∧ getattr o "palette" = Some palette
      ∧ getattr o "low" = Some low
      ∧ getattr o "high" = Some high
      ∧ getattr o "low_color" = Some PyNone
      ∧ getattr o "high_color" = Some PyNone
      ∧ getattr o "nan_color" = Some (PyStr "gray").

(** ** Two validations to run the helpers with *)

(** Accepts every call. *)
Definition permissive : Validation := fun _ _ _ => None.

Definition is_number (v : pyval) : bool :=
  match v with PyInt _ | PyFloat _ => true | _ => false end.

Definition is_str (v : pyval) : bool :=
  match v with PyStr _ => true | _ => false end.

Definition is_str_seq (v : pyval) : bool :=
  match v with
  | PyTuple items | PyList items => forallb is_str items
  | _ => false
  end.

(** Checks the type of a few properties, in the manner of the property
    system: the offset of a [Dodge] and the width of a [Jitter] are numbers,
    the fields of a [Stack] are strings. *)
Definition typed : Validation := fun cls kw _ =>
  let bad (name : string) (ok : pyval -> bool) :=
    match (list_to_map kw : gmap string pyval) !! name with
    | Some v => negb (ok v)
    | None => false
    end in
  let rejected :=
    match cls with
    | ClsDodge => bad "value" is_number
    | ClsJitter => bad "width" is_number
    | ClsStack => bad "fields" is_str_seq
    | _ => false
    end in
  if rejected then Some (PyExn "ValueError" "invalid property value") else None.

(** Inputs to run the helpers on. *)
Definition viridis3 : pyval :=
  PyList [PyStr "#440154"; PyStr "#21908C"; PyStr "#FDE725"].

Definition fruits : pyval :=
  PyList [PyStr "apple"; PyStr "pear"; PyStr "plum"].

Definition dodge_instance (value : pyval) : instance :=
  Instance ClsDodge (list_to_map [("value", value); ("range", PyNone)]).

(** The store after one call [dodge("x", 1)] from the empty store, and
    after a second one. *)
Definition one_dodge : heap := <[1%positive := dodge_instance (PyInt 1)]> ∅.

Definition two_dodges : heap :=
  <[2%positive := dodge_instance (PyInt 1)]> one_dodge.

(** The two continuous colour-mapping helpers, which have the same
    signature, and the class each one instantiates. *)
Inductive cmap_kind : Type := LinearScale | LogScale.

Definition cmap_helper `{Validation} (k : cmap_kind)
  : pyval → pyval → pyval → pyval →
    option pyval → option pyval → option pyval → py dataspec :=
  match k with LinearScale => linear_cmap | LogScale => log_cmap end.

Definition cmap_class (k : cmap_kind) : model_class :=
  match k with
  | LinearScale => ClsLinearColorMapper
  | LogScale => ClsLogColorMapper
  end.

(** The same call with another field name; [stack] takes none. *)
Definition with_field_name (f : pyval) (c : api_call) : api_call :=
  match c with
  | call_dodge _ v r => call_dodge f v r
  | call_factor_cmap _ p fs s e n => call_factor_cmap f p fs s e n
  | call_jitter _ w m d r => call_jitter f w m d r
  | call_linear_cmap _ p lo hi lc hc n => call_linear_cmap f p lo hi lc hc n
  | call_log_cmap _ p lo hi lc hc n => call_log_cmap f p lo hi lc hc n
  | call_stack fs => call_stack fs
  | call_transform _ t => call_transform f t
  end.

(** A store that holds one range object, as a caller of [dodge] or [jitter]
    on categorical data has. *)
Definition factor_range : instance :=
  Instance (ClsOther "FactorRange")
    (<["factors" := PyList [PyStr "a"; PyStr "b"]]> ∅).

Definition one_range : heap := <[1%positive := factor_range]> ∅.

(** The store after a colour-mapping helper ran from the empty store with
    [viridis3] between 0 and 100 and no optional argument. *)
Definition one_cmap (cls : model_class) : heap :=
  <[1%positive :=
      Instance cls
        (list_to_map [("palette", viridis3); ("low", PyInt 0);
                      ("high", PyInt 100); ("nan_color", PyStr "gray");
                      ("low_color", PyNone); ("high_color", PyNone)])]> ∅.

(** ** Properties *)

Section Properties.
Context `{Validation}.

Lemma fresh_unused (h : heap) : h !! fresh (dom h) = None.
Proof. apply not_elem_of_dom, is_fresh. Qed.

Lemma new_model_returns cls kw (h : heap) :
  validate cls kw h = None →
  new_model cls kw h
  = Returns (PyRef (fresh (dom h)))
            (<[fresh (dom h) := Instance cls (list_to_map kw)]> h).
Proof. intros Hv. unfold new_model. now rewrite Hv. Qed.

Lemma new_model_raises cls kw (h : heap) e :
  new_model cls kw h = Raises e ↔ validate cls kw h = Some e.
Proof.
  unfold new_model, alloc.
  destruct (validate cls kw h) as [e'|]; split; intros He;
    try discriminate; congruence.
Qed.

Lemma returns_new_model cls kw (h : heap) :
  returns (new_model cls kw) h = true → validate cls kw h = None.
Proof.
  unfold returns, new_model.
  destruct (validate cls kw h); [discriminate | reflexivity].
Qed.

(** What a helper of the form [t <- C kw ;; ret (wrap t)] computes. *)
Lemma wrap_new_model cls kw (wrap : pyval → dataspec) (h : heap) :
  validate cls kw h = None →
  (t <- new_model cls kw ;; ret (wrap t)) h
  = Returns (wrap (PyRef (fresh (dom h))))
            (<[fresh (dom h) := Instance cls (list_to_map kw)]> h).
Proof. intros Hv. unfold bind. now rewrite new_model_returns. Qed.

Lemma wrap_new_model_raises cls kw (wrap : pyval → dataspec) (h : heap) e :
  (t <- new_model cls kw ;; ret (wrap t)) h = Raises e
  ↔ new_model cls kw h = Raises e.
Proof.
  unfold bind. destruct (new_model cls kw h); simpl.
  - split; discriminate.
  - split; intros [= ->]; reflexivity.
Qed.

Lemma field_lookup_field f t : field f t !! "field" = Some f.
Proof. apply lookup_insert_eq. Qed.

Lemma field_lookup_transform f t : field f t !! "transform" = Some t.
Proof.
  unfold field. rewrite lookup_insert_ne by done. apply lookup_insert_eq.
Qed.

Lemma expr_lookup_expr e : expr e !! "expr" = Some e.
Proof. apply lookup_insert_eq. Qed.

Lemma dom_field f t : dom (field f t) = ({["field"; "transform"]} : gset string).
Proof.
  unfold field. rewrite !dom_insert_L, dom_empty_L. set_solver.
Qed.

Lemma dom_expr e : dom (expr e) = ({["expr"]} : gset string).
Proof.
  unfold expr. rewrite dom_insert_L, dom_empty_L. set_solver.
Qed.

Lemma embedded_field_new f l o (h : heap) :
  embedded "transform" (field f (PyRef l)) (<[l := o]> h) = Some o.
Proof.
  unfold embedded. rewrite field_lookup_transform. simpl.
  apply lookup_insert_eq.
Qed.

Lemma embedded_expr_new l o (h : heap) :
  embedded "expr" (expr (PyRef l)) (<[l := o]> h) = Some o.
Proof.
  unfold embedded. rewrite expr_lookup_expr. simpl.
  apply lookup_insert_eq.
Qed.

Ltac unfold_helpers :=
  unfold dodge, factor_cmap, jitter, linear_cmap, log_cmap, stack, transform,
    Dodge, Jitter, CategoricalColorMapper, LinearColorMapper, LogColorMapper,
    Stack in *.

(** C1: every helper that takes a field name returns, whenever its
    constructor accepts the arguments, a mapping whose [field] entry is that
    field name. *)
Theorem field_name_carried (c : api_call) (s : string) (h : heap) :
  field_name_of c = Some (PyStr s) →
  accepted c h = true →
  ∃ d h', run_call c h = Returns d h' ∧ d !! "field" = Some (PyStr s).
Proof.
  intros Hf Hacc.
  destruct c; simpl in Hf; try discriminate; injection Hf as ->;
    unfold accepted in Hacc; simpl in Hacc; cbn [run_call];
    eexists _, _;
    (split; [|apply field_lookup_field]);
    first [ reflexivity
          | apply returns_new_model in Hacc;
            apply (wrap_new_model _ _ (field (PyStr s))), Hacc ].
Qed.

(** C2: [stack c1 ... cn] returns the expression variant, and the [Stack]
    expression it carries has the fields [(c1, ..., cn)], in that order. *)
Theorem stack_carries_fields (cols : list string) (h : heap) :
  validate ClsStack [("fields", PyTuple (PyStr <$> cols))] h = None →
  ∃ d h' o,
    stack (PyStr <$> cols) h = Returns d h'
    ∧ dom d = {["expr"]}
    ∧ embedded "expr" d h' = Some o
    ∧ inst_class o = ClsStack
    ∧ getattr o "fields" = Some (PyTuple (PyStr <$> cols)).
Proof.
  intros Hv. eexists _, _, _. split.
  { unfold_helpers. apply (wrap_new_model _ _ expr), Hv. }
  split; [apply dom_expr|].
  split; [apply embedded_expr_new|].
  split; done.
Qed.

(** C3: called with [start], [end] and [nan_color] unset, [factor_cmap]
    returns a mapping that carries a [CategoricalColorMapper] with the given
    palette and factors, [start] 0, [end] [None] and [nan_color] "gray". *)
Theorem factor_cmap_defaults (field_name palette factors : pyval) (h : heap) :
  validate ClsCategoricalColorMapper
    [("palette", palette); ("factors", factors); ("start", PyInt 0);
     ("end", PyNone); ("nan_color", PyStr "gray")] h = None →
  ∃ d h' o,
    factor_cmap field_name palette factors None None None h = Returns d h'
    ∧ embedded "transform" d h' = Some o
    ∧ inst_class o = ClsCategoricalColorMapper
    ∧ getattr o "palette" = Some palette
    ∧ getattr o "factors" = Some factors
    ∧ getattr o "start" = Some (PyInt 0)
    ∧ getattr o "end" = Some PyNone
    ∧ getattr o "nan_color" = Some (PyStr "gray").
Proof.
  intros Hv. eexists _, _, _. split.
  { unfold_helpers. simpl. apply (wrap_new_model _ _ (field field_name)), Hv. }
  split; [apply embedded_field_new|].
  repeat split; done.
Qed.

(** C4: called with [low_color], [high_color] and [nan_color] unset,
    [linear_cmap] (respectively [log_cmap]) returns a mapping that carries a
    [LinearColorMapper] (respectively [LogColorMapper]) with the given
    palette, [low] and [high], no [low_color], no [high_color], and
    [nan_color] "gray". *)
Theorem linear_and_log_cmap_defaults :
  cmap_defaults_spec linear_cmap ClsLinearColorMapper
  ∧ cmap_defaults_spec log_cmap ClsLogColorMapper.
Proof.
  split; intros field_name palette low high h Hv; eexists _, _, _;
    (split; [unfold_helpers; simpl;
             apply (wrap_new_model _ _ (field field_name)), Hv|]);
    (split; [apply embedded_field_new|]);
    repeat split; done.
Qed.

(** C5: called with [mean], [distribution] and [range] unset, [jitter]
    returns a mapping that carries a [Jitter] with the given width, [mean] 0,
    [distribution] "uniform" and [range] [None]. *)
Theorem jitter_defaults (field_name width : pyval) (h : heap) :
  validate ClsJitter
    [("mean", PyInt 0); ("width", width); ("distribution", PyStr "uniform");
     ("range", PyNone)] h = None →
  ∃ d h' o,
    jitter field_name width None None None h = Returns d h'
    ∧ embedded "transform" d h' = Some o
    ∧ inst_class o = ClsJitter
    ∧ getattr o "width" = Some width
    ∧ getattr o "mean" = Some (PyInt 0)
    ∧ getattr o "distribution" = Some (PyStr "uniform")
    ∧ getattr o "range" = Some PyNone.
Proof.
  intros Hv. eexists _, _, _. split.
  { unfold_helpers. simpl. apply (wrap_new_model _ _ (field field_name)), Hv. }
  split; [apply embedded_field_new|].
  repeat split; done.
Qed.

(** C6: called with [range] unset, [dodge] returns a mapping that carries a
    [Dodge] object (an additive offset, not a [Jitter]) whose [value] is the
    argument and whose [range] is [None]. *)
Theorem dodge_embeds_Dodge (field_name value : pyval) (h : heap) :
  validate ClsDodge [("value", value); ("range", PyNone)] h = None →
  ∃ d h' o,
    dodge field_name value None h = Returns d h'
    ∧ embedded "transform" d h' = Some o
    ∧ inst_class o = ClsDodge
    ∧ inst_class o ≠ ClsJitter
    ∧ getattr o "value" = Some value
    ∧ getattr o "range" = Some PyNone.
Proof.
  intros Hv. eexists _, _, _. split.
  { unfold_helpers. simpl. apply (wrap_new_model _ _ (field field_name)), Hv. }
  split; [apply embedded_field_new|].
  repeat split; done.
Qed.

(** C7: a helper's result has exactly the keys [field] and [transform],
    except the result of [stack], which has exactly the key [expr]. *)
Theorem result_shape (c : api_call) (h : heap) :
  accepted c h = true →
  ∃ d h',
    run_call c h = Returns d h'
    ∧ dom d = if is_stack c then {["expr"]} else {["field"; "transform"]}.
Proof.
  intros Hacc.
  destruct c; unfold accepted in Hacc; simpl in Hacc; cbn [run_call is_stack];
    eexists _, _;
    (split; [first [ reflexivity
                   | apply returns_new_model in Hacc;
                     first [ apply (wrap_new_model _ _ (field _)), Hacc
                           | apply (wrap_new_model _ _ expr), Hacc ] ] |]);
    first [apply dom_field | apply dom_expr].
Qed.

Lemma observe_field (h : heap) f t :
  observe h (field f t)
  = <["field" := observe_value h f]>
      (<["transform" := observe_value h t]> ∅).
Proof. unfold observe, field. now rewrite !fmap_insert, fmap_empty. Qed.

Lemma observe_expr (h : heap) e :
  observe h (expr e) = <["expr" := observe_value h e]> ∅.
Proof. unfold observe, expr. now rewrite fmap_insert, fmap_empty. Qed.

(** Two runs of the same constructing helper, the second in a store that
    still holds what the first one built. *)
Lemma two_runs cls kw (wrap : pyval → dataspec) (ha ha' hb hb' : heap) d1 d2 :
  (t <- new_model cls kw ;; ret (wrap t)) ha = Returns d1 ha' →
  ha' ⊆ hb →
  (t <- new_model cls kw ;; ret (wrap t)) hb = Returns d2 hb' →
  ∃ la lb o,
    d1 = wrap (PyRef la) ∧ d2 = wrap (PyRef lb)
    ∧ ha !! la = None ∧ ha' = <[la := o]> ha
    ∧ hb !! lb = None ∧ hb' = <[lb := o]> hb
    ∧ observe_value hb' (PyRef la) = observe_value hb' (PyRef lb).
Proof.
  unfold bind, new_model, alloc, ret. intros H1 Hsub H2.
  destruct (validate cls kw ha); [discriminate|].
  destruct (validate cls kw hb); [discriminate|].
  injection H1 as <- <-. injection H2 as <- <-.
  exists (fresh (dom ha)), (fresh (dom hb)), (Instance cls (list_to_map kw)).
  repeat split; try apply fresh_unused.
  unfold observe_value, deref.
  rewrite lookup_insert_eq.
  destruct (decide (fresh (dom hb) = fresh (dom ha))) as [->|Hne].
  - now rewrite lookup_insert_eq.
  - rewrite lookup_insert_ne by done.
    erewrite (lookup_weaken _ hb); [reflexivity| |exact Hsub].
    apply lookup_insert_eq.
Qed.

(** C8: the helpers are pure.  A call leaves every object of the store as it
    was and adds at most the object its result names; and a later call of
    the same helper with the same arguments returns a mapping with the same
    content: the same keys, the same values, and behind each reference an
    object of the same class with the same properties. *)
Theorem helpers_pure (c : api_call) (ha ha' hb hb' : heap) (d1 d2 : dataspec) :
  run_call c ha = Returns d1 ha' →
  ha' ⊆ hb →
  run_call c hb = Returns d2 hb' →
  ha ⊆ ha'
  ∧ (∀ l, l ∈ dom ha' → l ∉ dom ha → ∃ key, d1 !! key = Some (PyRef l))
  ∧ observe hb' d1 = observe hb' d2.
Proof.
  intros H1 Hsub H2.
  destruct c; cbn [run_call] in H1, H2; unfold_helpers; cbv zeta in H1, H2.
  7: { injection H1 as <- <-. injection H2 as <- <-.
       repeat split; [done|]. intros l Hl Hnl. done. }
  all: destruct (two_runs _ _ _ _ _ _ _ _ _ H1 Hsub H2)
         as (la & lb & o & -> & -> & Hla & -> & Hlb & -> & Hobs).
  all: split; [apply insert_subseteq, Hla|].
  all: split;
         [ intros l Hl Hnl; rewrite dom_insert_L in Hl;
           apply elem_of_union in Hl as [Hl%elem_of_singleton|Hl];
           [subst l|contradiction];
           first [ exists "transform"; apply field_lookup_transform
                 | exists "expr"; apply expr_lookup_expr ]
         | rewrite ?observe_field, ?observe_expr, Hobs; reflexivity ].
Qed.

(** C9: a helper raises exactly when the constructor it delegates to raises,
    and it raises the very same exception; [transform], which calls no
    constructor, never raises. *)
Theorem failure_is_constructor_rejection (c : api_call) (h : heap) (e : pyexn) :
  run_call c h = Raises e
  ↔ ∃ ctor, underlying_constructor c = Some ctor ∧ ctor h = Raises e.
Proof.
  destruct c; cbn [run_call underlying_constructor]; unfold_helpers;
    cbv zeta; rewrite ?wrap_new_model_raises.
  7: { split; [discriminate | intros (ctor & [=] & _)]. }
  all: split;
         [ intros Hr; eexists; split; [reflexivity | exact Hr]
         | intros (ctor & [= <-] & Hr); exact Hr ].
Qed.

(** C10: [transform] puts the object it is given in the mapping as it is:
    the [transform] entry of the result is the argument itself, whatever it
    is, and the store is left untouched. *)
Theorem transform_embeds_argument (field_name t : pyval) (h : heap) :
  ∃ d,
    transform field_name t h = Returns d h
    ∧ d !! "transform" = Some t
    ∧ d !! "field" = Some field_name.
Proof.
  exists (field field_name t).
  split; [reflexivity|].
  split; [apply field_lookup_transform | apply field_lookup_field].
Qed.

End Properties.

(** ** Runs on concrete inputs *)

(** The first object is built at address 1, the next one at address 2. *)
Example dodge_twice :
  @dodge typed (PyStr "x") (PyInt 1) None ∅
  = Returns (field (PyStr "x") (PyRef 1)) one_dodge
  ∧ @dodge typed (PyStr "x") (PyInt 1) None one_dodge
    = Returns (field (PyStr "x") (PyRef 2)) two_dodges.
Proof. split; vm_compute; reflexivity. Qed.

(** The docstring's example, [stack("sales", "marketing")]. *)
Example stack_sales_marketing :
  @stack typed [PyStr "sales"; PyStr "marketing"] ∅
  = Returns (expr (PyRef 1))
      (<[1%positive :=
           Instance ClsStack
             (<["fields" := PyTuple [PyStr "sales"; PyStr "marketing"]]> ∅)]> ∅).
Proof. vm_compute. reflexivity. Qed.

(** A validation that checks types rejects an offset that is no number, and
    [dodge] lets the exception through. *)
Example dodge_rejected :
  @dodge typed (PyStr "x") (PyStr "wide") None ∅
  = Raises (PyExn "ValueError" "invalid property value")
  ∧ @Dodge typed [("value", PyStr "wide"); ("range", PyNone)] ∅
    = Raises (PyExn "ValueError" "invalid property value").
Proof. split; vm_compute; reflexivity. Qed.

Lemma field_name_carried_witness :
  field_name_of (call_jitter (PyStr "x") (PyFloat 0.5%float) None None None)
  = Some (PyStr "x")
  ∧ @accepted typed (call_jitter (PyStr "x") (PyFloat 0.5%float) None None None) ∅
    = true
  ∧ ∃ d h',
      @run_call typed (call_jitter (PyStr "x") (PyFloat 0.5%float) None None None) ∅
      = Returns d h'
      ∧ d !! "field" = Some (PyStr "x").
Proof.
  split; [reflexivity|]. split; [reflexivity|].
  apply (@field_name_carried typed _ "x" ∅); reflexivity.
Defined.

Lemma stack_carries_fields_witness :
  ∃ d h' o,
    @stack typed [PyStr "sales"; PyStr "marketing"] ∅ = Returns d h'
    ∧ dom d = {["expr"]}
    ∧ embedded "expr" d h' = Some o
    ∧ inst_class o = ClsStack
    ∧ getattr o "fields" = Some (PyTuple [PyStr "sales"; PyStr "marketing"]).
Proof.
  apply (@stack_carries_fields typed ["sales"; "marketing"] ∅). reflexivity.
Defined.

(** [stack()] with no column at all. *)
Example stack_of_nothing :
  ∃ d h' o,
    @stack typed [] ∅ = Returns d h'
    ∧ dom d = {["expr"]}
    ∧ embedded "expr" d h' = Some o
    ∧ inst_class o = ClsStack
    ∧ getattr o "fields" = Some (PyTuple []).
Proof.
  exists (expr (PyRef 1)),
    (<[1%positive := Instance ClsStack (<["fields" := PyTuple []]> ∅)]> ∅),
    (Instance ClsStack (<["fields" := PyTuple []]> ∅)).
  repeat split; vm_compute; reflexivity.
Qed.

Lemma factor_cmap_defaults_witness :
  ∃ d h' o,
    @factor_cmap typed (PyStr "fruit") viridis3 fruits None None None ∅
    = Returns d h'
    ∧ embedded "transform" d h' = Some o
    ∧ inst_class o = ClsCategoricalColorMapper
    ∧ getattr o "palette" = Some viridis3
    ∧ getattr o "factors" = Some fruits
    ∧ getattr o "start" = Some (PyInt 0)
    ∧ getattr o "end" = Some PyNone
    ∧ getattr o "nan_color" = Some (PyStr "gray").
Proof.
  apply (@factor_cmap_defaults typed (PyStr "fruit") viridis3 fruits ∅).
  reflexivity.
Defined.

Lemma linear_and_log_cmap_defaults_witness :
  (∃ d h' o,
     @linear_cmap permissive (PyStr "t") viridis3 (PyInt 0) (PyInt 100)
       None None None ∅ = Returns d h'
     ∧ embedded "transform" d h' = Some o
     ∧ inst_class o = ClsLinearColorMapper
     ∧ getattr o "palette" = Some viridis3
     ∧ getattr o "low" = Some (PyInt 0)
     ∧ getattr o "high" = Some (PyInt 100)
     ∧ getattr o "low_color" = Some PyNone
     ∧ getattr o "high_color" = Some PyNone
     ∧ getattr o "nan_color" = Some (PyStr "gray"))
  ∧ (∃ d h' o,
       @log_cmap permissive (PyStr "t") viridis3 (PyInt 1) (PyInt 100)
         None None None ∅ = Returns d h'
       ∧ embedded "transform" d h' = Some o
       ∧ inst_class o = ClsLogColorMapper
       ∧ getattr o "palette" = Some viridis3
       ∧ getattr o "low" = Some (PyInt 1)
       ∧ getattr o "high" = Some (PyInt 100)
       ∧ getattr o "low_color" = Some PyNone
       ∧ getattr o "high_color" = Some PyNone
       ∧ getattr o "nan_color" = Some (PyStr "gray")).
Proof.
  split.
  - apply (proj1 (@linear_and_log_cmap_defaults permissive)). reflexivity.
  - apply (proj2 (@linear_and_log_cmap_defaults permissive)). reflexivity.
Defined.

Lemma jitter_defaults_witness :
  ∃ d h' o,
    @jitter typed (PyStr "x") (PyFloat 0.5%float) None None None ∅ = Returns d h'
    ∧ embedded "transform" d h' = Some o
    ∧ inst_class o = ClsJitter
    ∧ getattr o "width" = Some (PyFloat 0.5%float)
    ∧ getattr o "mean" = Some (PyInt 0)
    ∧ getattr o "distribution" = Some (PyStr "uniform")
    ∧ getattr o "range" = Some PyNone.
Proof.
  apply (@jitter_defaults typed (PyStr "x") (PyFloat 0.5%float) ∅). reflexivity.
Defined.

Lemma dodge_embeds_Dodge_witness :
  @validate typed ClsDodge [("value", PyInt 2); ("range", PyNone)] ∅ = None
  ∧ ∃ d h' o,
      @dodge typed (PyStr "x") (PyInt 2) None ∅ = Returns d h'
      ∧ embedded "transform" d h' = Some o
      ∧ inst_class o = ClsDodge
      ∧ inst_class o ≠ ClsJitter
      ∧ getattr o "value" = Some (PyInt 2)
      ∧ getattr o "range" = Some PyNone.
Proof.
  split; [reflexivity|].
  apply (@dodge_embeds_Dodge typed (PyStr "x") (PyInt 2) ∅). reflexivity.
Defined.

Lemma result_shape_witness :
  (∃ d h',
     @run_call typed (call_stack [PyStr "sales"; PyStr "marketing"]) ∅
     = Returns d h'
     ∧ dom d = {["expr"]})
  ∧ (∃ d h',
       @run_call typed (call_dodge (PyStr "x") (PyInt 2) None) ∅
       = Returns d h'
       ∧ dom d = {["field"; "transform"]}).
Proof.
  split.
  - apply (@result_shape typed (call_stack [PyStr "sales"; PyStr "marketing"]) ∅).
    reflexivity.
  - apply (@result_shape typed (call_dodge (PyStr "x") (PyInt 2) None) ∅).
    reflexivity.
Defined.

Lemma helpers_pure_witness :
  (∅ : heap) ⊆ one_dodge
  ∧ (∀ l, l ∈ dom one_dodge → l ∉ dom (∅ : heap) →
          ∃ key, field (PyStr "x") (PyRef 1) !! key = Some (PyRef l))
  ∧ observe two_dodges (field (PyStr "x") (PyRef 1))
    = observe two_dodges (field (PyStr "x") (PyRef 2)).
Proof.
  apply (@helpers_pure typed (call_dodge (PyStr "x") (PyInt 1) None)
           ∅ one_dodge one_dodge two_dodges).
  - vm_compute. reflexivity.
  - reflexivity.
  - vm_compute. reflexivity.
Defined.

(** ** Further properties of the helpers *)

Section Routing.
Context `{Validation}.

Ltac run_constructor f Hv :=
  unfold cmap_helper, dodge, factor_cmap, jitter, linear_cmap, log_cmap, stack,
    Dodge, Jitter, CategoricalColorMapper, LinearColorMapper, LogColorMapper,
    Stack;
  simpl; apply (wrap_new_model _ _ (field f)), Hv.

(** [factor_cmap] hands every optional argument to the keyword of the same
    name: a value that is given replaces the default, one that is left out
    takes it. *)
Theorem factor_cmap_options (field_name palette factors : pyval)
    (start end_ nan_color : option pyval) (h : heap) :
  validate ClsCategoricalColorMapper
    [("palette", palette); ("factors", factors);
     ("start", default (PyInt 0) start); ("end", default PyNone end_);
     ("nan_color", default (PyStr "gray") nan_color)] h = None →
  ∃ d h' o,
    factor_cmap field_name palette factors start end_ nan_color h
    = Returns d h'
    ∧ embedded "transform" d h' = Some o
    ∧ inst_class o = ClsCategoricalColorMapper
    ∧ getattr o "palette" = Some palette
    ∧ getattr o "factors" = Some factors
    ∧ getattr o "start" = Some (default (PyInt 0) start)
    ∧ getattr o "end" = Some (default PyNone end_)
    ∧ getattr o "nan_color" = Some (default (PyStr "gray") nan_color).
Proof.
  intros Hv. eexists _, _, _.
  split; [run_constructor field_name Hv|].
  split; [apply embedded_field_new|].
  repeat split; done.
Qed.

(** [linear_cmap] and [log_cmap] take [low_color], [high_color], [nan_color]
    in that order and write the keywords in another order; each argument
    still reaches the keyword of its own name. *)
Theorem cmap_options (k : cmap_kind) (field_name palette low high : pyval)
    (low_color high_color nan_color : option pyval) (h : heap) :
  validate (cmap_class k)
    [("palette", palette); ("low", low); ("high", high);
     ("nan_color", default (PyStr "gray") nan_color);
     ("low_color", default PyNone low_color);
     ("high_color", default PyNone high_color)] h = None →
  ∃ d h' o,
    cmap_helper k field_name palette low high low_color high_color nan_color h
    = Returns d h'
    ∧ embedded "transform" d h' = Some o
    ∧ inst_class o = cmap_class k
    ∧ getattr o "low" = Some low
    ∧ getattr o "high" = Some high
    ∧ getattr o "low_color" = Some (default PyNone low_color)
    ∧ getattr o "high_color" = Some (default PyNone high_color)
    ∧ getattr o "nan_color" = Some (default (PyStr "gray") nan_color).
Proof.
  intros Hv. destruct k; eexists _, _, _.
  all: split; [run_constructor field_name Hv|].
  all: split; [apply embedded_field_new|].
  all: repeat split; done.
Qed.

(** [jitter] hands [mean], [distribution] and [range] to the keywords of the
    same names, given or defaulted, although it writes [mean] before
    [width]. *)
Theorem jitter_options (field_name width : pyval)
    (mean distribution range : option pyval) (h : heap) :
  validate ClsJitter
    [("mean", default (PyInt 0) mean); ("width", width);
     ("distribution", default (PyStr "uniform") distribution);
     ("range", default PyNone range)] h = None →
  ∃ d h' o,
    jitter field_name width mean distribution range h = Returns d h'
    ∧ embedded "transform" d h' = Some o
    ∧ inst_class o = ClsJitter
    ∧ getattr o "width" = Some width
    ∧ getattr o "mean" = Some (default (PyInt 0) mean)
    ∧ getattr o "distribution" = Some (default (PyStr "uniform") distribution)
    ∧ getattr o "range" = Some (default PyNone range).
Proof.
  intros Hv. eexists _, _, _.
  split; [run_constructor field_name Hv|].
  split; [apply embedded_field_new|].
  repeat split; done.
Qed.

(** A range object given to [dodge] is shared, not copied: the [Dodge]
    object refers to the caller's range, the range is left as it was, and
    the [Dodge] object is another object than the range. *)
Theorem dodge_shares_range (field_name value : pyval) (r : loc)
    (range : instance) (h : heap) :
  h !! r = Some range →
  validate ClsDodge [("value", value); ("range", PyRef r)] h = None →
  ∃ d h' o,
    dodge field_name value (Some (PyRef r)) h = Returns d h'
    ∧ embedded "transform" d h' = Some o
    ∧ getattr o "range" = Some (PyRef r)
    ∧ h' !! r = Some range
    ∧ d !! "transform" ≠ Some (PyRef r).
Proof.
  intros Hr Hv. eexists _, _, _.
  split; [run_constructor field_name Hv|].
  split; [apply embedded_field_new|].
  assert (fresh (dom h) ≠ r) as Hne.
  { intros Heq. subst r. pose proof (fresh_unused h) as Hf. congruence. }
  split; [done|].
  split; [now rewrite lookup_insert_ne|].
  rewrite field_lookup_transform. congruence.
Qed.

End Routing.

Section Calls.
Context `{Validation}.

Ltac unfold_api :=
  unfold dodge, factor_cmap, jitter, linear_cmap, log_cmap, stack, transform,
    Dodge, Jitter, CategoricalColorMapper, LinearColorMapper, LogColorMapper,
    Stack in *.

(** What a returning helper of the form [t <- C kw ;; ret (wrap t)] did. *)
Lemma wrap_new_model_inv cls kw (wrap : pyval → dataspec) (h h' : heap) d :
  (t <- new_model cls kw ;; ret (wrap t)) h = Returns d h' →
  validate cls kw h = None
  ∧ d = wrap (PyRef (fresh (dom h)))
  ∧ h' = <[fresh (dom h) := Instance cls (list_to_map kw)]> h.
Proof.
  unfold bind, new_model, alloc, ret.
  destruct (validate cls kw h); [discriminate|].
  intros [= <- <-]. repeat split; reflexivity.
Qed.

(** Called with the same arguments in the same store, [linear_cmap] and
    [log_cmap] return the same mapping, and the two mappers have the same
    properties: they differ in their class and in nothing else. *)
Theorem linear_and_log_differ_in_class (field_name palette low high : pyval)
    (low_color high_color nan_color : option pyval)
    (h h1 h2 : heap) (d1 d2 : dataspec) :
  linear_cmap field_name palette low high low_color high_color nan_color h
  = Returns d1 h1 →
  log_cmap field_name palette low high low_color high_color nan_color h
  = Returns d2 h2 →
  d1 = d2
  ∧ ∃ o1 o2,
      embedded "transform" d1 h1 = Some o1
      ∧ embedded "transform" d2 h2 = Some o2
      ∧ inst_props o1 = inst_props o2
      ∧ inst_class o1 = ClsLinearColorMapper
      ∧ inst_class o2 = ClsLogColorMapper.
Proof.
  intros H1 H2. unfold_api. cbv zeta in H1, H2.
  apply wrap_new_model_inv in H1 as (_ & -> & ->).
  apply wrap_new_model_inv in H2 as (_ & -> & ->).
  split; [reflexivity|].
  eexists _, _.
  split; [apply embedded_field_new|].
  split; [apply embedded_field_new|].
  repeat split.
Qed.

(** The field name plays no part in what a helper builds: with another
    field name the call raises the same exception or leaves the same store,
    and its result is the former one with the [field] entry replaced. *)
Theorem field_name_only_labels (c : api_call) (f : pyval) (h : heap) :
  is_stack c = false →
  (∀ e, run_call c h = Raises e → run_call (with_field_name f c) h = Raises e)
  ∧ (∀ d h', run_call c h = Returns d h' →
       run_call (with_field_name f c) h = Returns (<["field" := f]> d) h').
Proof.
  intros Hns. destruct c; try discriminate; cbn [run_call with_field_name];
    unfold_api; cbv zeta.
  6: { split; [discriminate|]. intros d h' [= <- <-].
       unfold ret, field. now rewrite insert_insert_eq. }
  all: split;
    [ intros e He; apply wrap_new_model_raises;
      apply wrap_new_model_raises in He; exact He
    | intros d h' Hd; apply wrap_new_model_inv in Hd as (Hv & -> & ->);
      rewrite (wrap_new_model _ _ (field f) h Hv);
      unfold field; now rewrite insert_insert_eq ].
Qed.

(** Every call of a constructing helper builds an object of its own: a
    later call with the same arguments returns a mapping that names another
    object than the first.  [transform] builds nothing and returns the same
    mapping again. *)
Theorem repeated_call_builds_new_object (c : api_call)
    (ha ha' hb hb' : heap) (d1 d2 : dataspec) :
  run_call c ha = Returns d1 ha' →
  ha' ⊆ hb →
  run_call c hb = Returns d2 hb' →
  match underlying_constructor c with
  | Some _ => d1 ≠ d2
  | None => d1 = d2
  end.
Proof.
  intros H1 Hsub H2.
  destruct c; cbn [run_call underlying_constructor] in *; unfold_api;
    cbv zeta in H1, H2.
  7: { injection H1 as <- <-. injection H2 as <- <-. reflexivity. }
  all: destruct (two_runs _ _ _ _ _ _ _ _ _ H1 Hsub H2)
         as (la & lb & o & -> & -> & Hla & -> & Hlb & -> & _).
  all: assert (la ≠ lb) as Hne
         by (intros ->;
             pose proof (lookup_weaken _ hb lb o (lookup_insert_eq _ _ _) Hsub);
             congruence).
  all: intros Heq.
  all: first
         [ apply (f_equal (λ d : dataspec, d !! "transform")) in Heq;
           rewrite !field_lookup_transform in Heq
         | apply (f_equal (λ d : dataspec, d !! "expr")) in Heq;
           rewrite !expr_lookup_expr in Heq ];
       congruence.
Qed.

(** A returning call of a constructing helper adds exactly one object to
    the store, at an address that was unused; [transform] adds none. *)
Theorem one_object_per_call (c : api_call) (h h' : heap) (d : dataspec) :
  run_call c h = Returns d h' →
  match underlying_constructor c with
  | Some _ =>
      ∃ l, h !! l = None ∧ is_Some (h' !! l)
           ∧ dom h' = {[l]} ∪ dom h ∧ size h' = S (size h)
  | None => h' = h
  end.
Proof.
  intros Hr.
  destruct c; cbn [run_call underlying_constructor] in *; unfold_api;
    cbv zeta in Hr.
  7: { injection Hr as <- <-. reflexivity. }
  all: apply wrap_new_model_inv in Hr as (_ & -> & ->).
  all: exists (fresh (dom h)).
  all: split; [apply fresh_unused|].
  all: split; [rewrite lookup_insert_eq; eauto|].
  all: split; [apply dom_insert_L|].
  all: apply map_size_insert_None, fresh_unused.
Qed.

(** The result of a field helper is rebuilt by [transform] from its own two
    entries, in the store the helper left and without a new object. *)
Theorem result_rebuilt_by_transform (c : api_call) (h h' : heap)
    (d : dataspec) :
  is_stack c = false →
  run_call c h = Returns d h' →
  ∃ f t,
    d !! "field" = Some f
    ∧ d !! "transform" = Some t
    ∧ transform f t h' = Returns d h'.
Proof.
  intros Hns Hr.
  destruct c; try discriminate; cbn [run_call] in Hr; unfold_api;
    cbv zeta in Hr.
  6: { injection Hr as <- <-. eexists _, _.
       split; [apply field_lookup_field|].
       split; [apply field_lookup_transform | reflexivity]. }
  all: apply wrap_new_model_inv in Hr as (_ & -> & ->).
  all: eexists _, _.
  all: split; [apply field_lookup_field|].
  all: split; [apply field_lookup_transform | reflexivity].
Qed.

End Calls.

(** ** Runs of the further properties *)

Lemma factor_cmap_options_witness :
  ∃ d h' o,
    @factor_cmap typed (PyStr "fruit") viridis3 fruits
      (Some (PyInt 1)) None (Some (PyStr "red")) ∅ = Returns d h'
    ∧ embedded "transform" d h' = Some o
    ∧ inst_class o = ClsCategoricalColorMapper
    ∧ getattr o "palette" = Some viridis3
    ∧ getattr o "factors" = Some fruits
    ∧ getattr o "start" = Some (PyInt 1)
    ∧ getattr o "end" = Some PyNone
    ∧ getattr o "nan_color" = Some (PyStr "red").
Proof.
  apply (@factor_cmap_options typed (PyStr "fruit") viridis3 fruits
           (Some (PyInt 1)) None (Some (PyStr "red")) ∅).
  reflexivity.
Defined.

Lemma cmap_options_witness :
  ∃ d h' o,
    @log_cmap typed (PyStr "t") viridis3 (PyInt 1) (PyInt 100)
      (Some (PyStr "blue")) (Some (PyStr "red")) None ∅ = Returns d h'
    ∧ embedded "transform" d h' = Some o
    ∧ inst_class o = ClsLogColorMapper
    ∧ getattr o "low" = Some (PyInt 1)
    ∧ getattr o "high" = Some (PyInt 100)
    ∧ getattr o "low_color" = Some (PyStr "blue")
    ∧ getattr o "high_color" = Some (PyStr "red")
    ∧ getattr o "nan_color" = Some (PyStr "gray").
Proof.
  apply (@cmap_options typed LogScale (PyStr "t") viridis3 (PyInt 1)
           (PyInt 100) (Some (PyStr "blue")) (Some (PyStr "red")) None ∅).
  reflexivity.
Defined.

Lemma jitter_options_witness :
  ∃ d h' o,
    @jitter typed (PyStr "x") (PyFloat 0.5%float) (Some (PyInt 2))
      (Some (PyStr "normal")) (Some (PyRef 1)) one_range = Returns d h'
    ∧ embedded "transform" d h' = Some o
    ∧ inst_class o = ClsJitter
    ∧ getattr o "width" = Some (PyFloat 0.5%float)
    ∧ getattr o "mean" = Some (PyInt 2)
    ∧ getattr o "distribution" = Some (PyStr "normal")
    ∧ getattr o "range" = Some (PyRef 1).
Proof.
  apply (@jitter_options typed (PyStr "x") (PyFloat 0.5%float)
           (Some (PyInt 2)) (Some (PyStr "normal")) (Some (PyRef 1))
           one_range).
  reflexivity.
Defined.

Lemma dodge_shares_range_witness :
  one_range !! 1%positive = Some factor_range
  ∧ ∃ d h' o,
      @dodge typed (PyStr "x") (PyFloat 0.5%float) (Some (PyRef 1)) one_range
      = Returns d h'
      ∧ embedded "transform" d h' = Some o
      ∧ getattr o "range" = Some (PyRef 1)
      ∧ h' !! 1%positive = Some factor_range
      ∧ d !! "transform" ≠ Some (PyRef 1).
Proof.
  split; [reflexivity|].
  apply (@dodge_shares_range typed (PyStr "x") (PyFloat 0.5%float)
           1%positive factor_range one_range); reflexivity.
Defined.

Lemma linear_and_log_differ_in_class_witness :
  field (PyStr "t") (PyRef 1) = field (PyStr "t") (PyRef 1)
  ∧ ∃ o1 o2,
      embedded "transform" (field (PyStr "t") (PyRef 1))
        (one_cmap ClsLinearColorMapper) = Some o1
      ∧ embedded "transform" (field (PyStr "t") (PyRef 1))
          (one_cmap ClsLogColorMapper) = Some o2
      ∧ inst_props o1 = inst_props o2
      ∧ inst_class o1 = ClsLinearColorMapper
      ∧ inst_class o2 = ClsLogColorMapper.
Proof.
  apply (@linear_and_log_differ_in_class permissive (PyStr "t") viridis3
           (PyInt 0) (PyInt 100) None None None ∅
           (one_cmap ClsLinearColorMapper) (one_cmap ClsLogColorMapper)).
  - vm_compute. reflexivity.
  - vm_compute. reflexivity.
Defined.

Lemma field_name_only_labels_witness :
  (∀ e, @run_call typed (call_dodge (PyStr "x") (PyInt 1) None) ∅ = Raises e →
        @run_call typed (call_dodge (PyStr "y") (PyInt 1) None) ∅ = Raises e)
  ∧ (∀ d h',
       @run_call typed (call_dodge (PyStr "x") (PyInt 1) None) ∅
       = Returns d h' →
       @run_call typed (call_dodge (PyStr "y") (PyInt 1) None) ∅
       = Returns (<["field" := PyStr "y"]> d) h').
Proof.
  apply (@field_name_only_labels typed
           (call_dodge (PyStr "x") (PyInt 1) None) (PyStr "y") ∅).
  reflexivity.
Defined.

Lemma repeated_call_builds_new_object_witness :
  field (PyStr "x") (PyRef 1) ≠ field (PyStr "x") (PyRef 2).
Proof.
  apply (@repeated_call_builds_new_object typed
           (call_dodge (PyStr "x") (PyInt 1) None)
           ∅ one_dodge one_dodge two_dodges).
  - vm_compute. reflexivity.
  - reflexivity.
  - vm_compute. reflexivity.
Defined.

Lemma one_object_per_call_witness :
  ∃ l, (∅ : heap) !! l = None ∧ is_Some (one_dodge !! l)
       ∧ dom one_dodge = {[l]} ∪ dom (∅ : heap)
       ∧ size one_dodge = S (size (∅ : heap)).
Proof.
  apply (@one_object_per_call typed (call_dodge (PyStr "x") (PyInt 1) None)
           ∅ one_dodge (field (PyStr "x") (PyRef 1))).
  vm_compute. reflexivity.
Defined.

Lemma result_rebuilt_by_transform_witness :
  ∃ f t,
    field (PyStr "x") (PyRef 1) !! "field" = Some f
    ∧ field (PyStr "x") (PyRef 1) !! "transform" = Some t
    ∧ transform f t one_dodge
      = Returns (field (PyStr "x") (PyRef 1)) one_dodge.
Proof.
  apply (@result_rebuilt_by_transform typed
           (call_dodge (PyStr "x") (PyInt 1) None) ∅ one_dodge
           (field (PyStr "x") (PyRef 1))).
  - reflexivity.
  - vm_compute. reflexivity.
Defined.
